(** * ART_DRM backend: fault-isolation middleware, lifecycle hooks and
      route composition of [app/main.py] and [app/api/v1/__init__.py].

    The Python code is embedded shallowly.  A coroutine is a function
    from the world to an outcome (a value or a raised exception) and a
    new world; [try ... except] is a dispatch over the clauses in source
    order; the world records, in order, what the code of [main.py] does
    to its environment (the coroutines it awaits and the records it
    hands to its logger). *)

From Stdlib Require Import String Ascii List ZArith Bool Lia.
Import ListNotations.
Open Scope string_scope.

(** ** Python values *)

Module Py.

(** [needle in haystack] on two [str] values. *)
Fixpoint contains (haystack needle : string) : bool :=
  if String.prefix needle haystack then true
  else match haystack with
       | EmptyString => false
       | String _ rest => contains rest needle
       end.

(** A raised exception object: the names of the classes in the method
    resolution order of its class (its own class first), what [str(e)]
    gives, and what [traceback.format_exc()] gives while it is being
    handled. *)
Record Exn : Type := mkExn {
  mro : list string;
  str : string;
  format_exc : string
}.

(** [isinstance(e, cls)], which is also the test an [except cls] clause
    makes. *)
Definition isinstance (e : Exn) (cls : string) : bool :=
  existsb (String.eqb cls) (mro e).

(** Some classes of the standard hierarchy, by their resolution order. *)
Definition BaseException_mro : list string := ["BaseException"; "object"].
Definition Exception_mro : list string := "Exception" :: BaseException_mro.

Definition RuntimeError (msg tb : string) : Exn :=
  mkExn ("RuntimeError" :: Exception_mro) msg tb.
Definition NotImplementedError (msg tb : string) : Exn :=
  mkExn ("NotImplementedError" :: "RuntimeError" :: Exception_mro) msg tb.
Definition ValueError (msg tb : string) : Exn :=
  mkExn ("ValueError" :: Exception_mro) msg tb.
Definition KeyboardInterrupt (msg tb : string) : Exn :=
  mkExn ("KeyboardInterrupt" :: BaseException_mro) msg tb.
(** [fastapi.exceptions.RequestValidationError], imported by [main.py]. *)
Definition RequestValidationError (msg tb : string) : Exn :=
  mkExn ("RequestValidationError" :: "ValidationException" :: Exception_mro)
        msg tb.

(** What a call gives: it returns or it raises. *)
Inductive Outcome (A : Type) : Type :=
| Returned (a : A)
| Raised (e : Exn).
Arguments Returned {A} a.
Arguments Raised {A} e.

Definition newline : string := String "010"%char EmptyString.

End Py.
Import Py.

(** ** HTTP values *)

#[local] Set Warnings "-register-all".

Inductive Json : Type :=
| JNull
| JBool (b : bool)
| JNum (n : Z)
| JStr (s : string)
| JArr (items : list Json)
| JObj (fields : list (string * Json)).

Inductive Body : Type :=
| JsonBody (content : Json)
| FileBody (file_path media_type : string)
| RawBody (bytes : string).

Record Response : Type := mkResponse {
  status_code : Z;
  body : Body
}.

(** [JSONResponse(status_code=..., content=...)]. *)
Definition JSONResponse (status : Z) (content : Json) : Response :=
  mkResponse status (JsonBody content).

Record Request : Type := mkRequest {
  method : string;
  url_path : string
}.

(** ** The world and the coroutine monad *)

(** The levels of [logging] and their numbers. *)
Inductive Level : Type := DEBUG | INFO | WARNING | ERROR | CRITICAL.

Definition levelno (level : Level) : Z :=
  match level with
  | DEBUG => 10
  | INFO => 20
  | WARNING => 30
  | ERROR => 40
  | CRITICAL => 50
  end.

(** [logging.basicConfig(level=logging.INFO)], line 11; [logger], line 12,
    has no level of its own and takes this one. *)
Definition basicConfig_level : Level := INFO.

Definition isEnabledFor (level : Level) : bool :=
  (levelno basicConfig_level <=? levelno level)%Z.

(** What [main.py] does to its environment, in order. *)
Inductive Event : Type :=
| Await_call_next (request : Request)
| Await_connect_to_mongo
| Await_close_mongo_connection
| Log (level : Level) (message : string).

(** The world: the state [ext] that the code outside [main.py] owns (the
    database client, the route handlers' data: abstract), and the trace
    of what [main.py] has done so far. *)
Record World (H : Type) : Type := mkWorld {
  ext : H;
  trace : list Event
}.
Arguments mkWorld {H} ext trace.
Arguments ext {H} w.
Arguments trace {H} w.

(** A coroutine of the outside: it acts on [ext] only. *)
Definition External (H A : Type) : Type := H -> Outcome A * H.

Definition M (H A : Type) : Type := World H -> Outcome A * World H.

Section Monad.
Context {H : Type}.

Definition ret {A} (a : A) : M H A := fun w => (Returned a, w).

Definition raise {A} (e : Exn) : M H A := fun w => (Raised e, w).

Definition bind {A B} (m : M H A) (k : A -> M H B) : M H B :=
  fun w => match m w with
           | (Returned a, w') => k a w'
           | (Raised e, w') => (Raised e, w')
           end.

Definition emit (ev : Event) : M H unit :=
  fun w => (Returned tt, mkWorld (ext w) (trace w ++ [ev])).

(** [await f(...)] for a coroutine of the outside: the call is recorded,
    then the coroutine runs on the outside state. *)
Definition await {A} (ev : Event) (f : External H A) : M H A :=
  fun w => match f (ext w) with
           | (o, h') => (o, mkWorld h' (trace w ++ [ev]))
           end.

(** The clauses of a [try] statement, tried in source order on the raised
    exception; the first clause whose class matches runs, and what it
    raises is not offered to the clauses after it.  With no match the
    exception goes on. *)
Fixpoint except_clauses {A} (clauses : list (string * (Exn -> M H A)))
         (e : Exn) : M H A :=
  match clauses with
  | [] => raise e
  | (cls, handler) :: rest =>
      if isinstance e cls then handler e else except_clauses rest e
  end.

Definition try_except {A} (block : M H A)
           (clauses : list (string * (Exn -> M H A))) : M H A :=
  fun w => match block w with
           | (Returned a, w') => (Returned a, w')
           | (Raised e, w') => except_clauses clauses e w'
           end.

(** A record is written when its level is enabled and dropped
    otherwise. *)
Definition logger_log (level : Level) (message : string) : M H unit :=
  if isEnabledFor level then emit (Log level message) else ret tt.

Definition logger_error (message : string) : M H unit :=
  logger_log ERROR message.

Definition logger_critical (message : string) : M H unit :=
  logger_log CRITICAL message.

End Monad.

Notation "x <- m ;; k" := (bind m (fun x => k))
  (at level 61, m at next level, right associativity).
Notation "m ;;; k" := (bind m (fun _ => k))
  (at level 61, right associativity).

(** ** [app/main.py]: the middleware *)

Section Middleware.
Context {H : Type}.

Definition service_unavailable : Response :=
  JSONResponse 503
    (JObj [("detail", JStr "Service unavailable - database error")]).

Definition internal_server_error : Response :=
  JSONResponse 500 (JObj [("detail", JStr "Internal server error")]).

(** [db_exception_handler(request, call_next)], lines 32-49. *)
Definition db_exception_handler
           (call_next : Request -> External H Response)
           (request : Request) : M H Response :=
  try_except
    (response <- await (Await_call_next request) (call_next request) ;;
     ret response)
    [ ("RuntimeError", fun e =>
         if contains (str e) "MongoDB" then
           logger_error ("Database error: " ++ str e) ;;;
           ret (JSONResponse 503
                  (JObj [("detail",
                          JStr "Service unavailable - database error")]))
         else raise e);
      ("Exception", fun e =>
         logger_error ("Unhandled exception: " ++ str e ++ newline
                       ++ format_exc e) ;;;
         ret (JSONResponse 500
                (JObj [("detail", JStr "Internal server error")]))) ].

End Middleware.

(** The three ways the clauses of [db_exception_handler] treat a raised
    exception, read off lines 36-49: answered with 503, answered with
    500, or let through (the bare [raise] of line 43, or no clause
    matching). *)
Inductive FailureClassification : Type :=
| ServiceUnavailable
| InternalError
| PassThrough.

Definition classify (e : Exn) : FailureClassification :=
  if isinstance e "RuntimeError" then
    if contains (str e) "MongoDB" then ServiceUnavailable else PassThrough
  else if isinstance e "Exception" then InternalError
  else PassThrough.

(** The answer of the middleware to a raised exception, and the records
    it logs for it, by classification. *)
Definition fault_outcome (e : Exn) : Outcome Response :=
  match classify e with
  | ServiceUnavailable => Returned service_unavailable
  | InternalError => Returned internal_server_error
  | PassThrough => Raised e
  end.

Definition fault_log (e : Exn) : list Event :=
  match classify e with
  | ServiceUnavailable => [Log ERROR ("Database error: " ++ str e)]
  | InternalError =>
      [Log ERROR ("Unhandled exception: " ++ str e ++ newline
                  ++ format_exc e)]
  | PassThrough => []
  end.

(** A validation failure: [RequestValidationError] or a subclass of it.
    The class derives from [Exception] and not from [RuntimeError]. *)
Definition is_validation_failure (e : Exn) : bool :=
  isinstance e "RequestValidationError"
  && isinstance e "Exception"
  && negb (isinstance e "RuntimeError").

(** ** [app/main.py]: the lifecycle hooks *)

Section Lifecycle.
Context {H : Type}.

(** [startup_db()], lines 79-85.  [connect_to_mongo] lives in
    [app/db/database.py]; it is a parameter. *)
Definition startup_db (connect_to_mongo : External H unit) : M H unit :=
  try_except
    (await Await_connect_to_mongo connect_to_mongo)
    [ ("Exception", fun e =>
         logger_critical ("Failed to initialize database: " ++ str e) ;;;
         raise e) ].

(** [shutdown_db()], lines 87-89.  [close_mongo_connection] lives in
    [app/db/database.py]; it is a parameter. *)
Definition shutdown_db (close_mongo_connection : External H unit)
  : M H unit :=
  await Await_close_mongo_connection close_mongo_connection.

End Lifecycle.

(** ** Routers *)

Record Route : Type := mkRoute {
  path : string;
  methods : list string;
  endpoint : string;
  include_in_schema : bool
}.

(** A router, as far as its routes go; event handlers that a router may
    carry are not represented. *)
Record APIRouter : Type := mkAPIRouter {
  routes : list Route
}.

(** [APIRouter()]. *)
Definition APIRouter_new : APIRouter := mkAPIRouter [].

Definition under (prefix : string) (r : Route) : Route :=
  mkRoute (prefix ++ path r) (methods r) (endpoint r) (include_in_schema r).

(** [include_router(router, prefix=...)]: every route of [router], in
    order, is added after the routes already there, its path behind
    [prefix].  The prefixes passed in this repository are the empty one
    and "/api/v1"; the checks the framework makes on other prefixes are
    not represented. *)
Definition include_routes (into : list Route) (router : APIRouter)
           (prefix : string) : list Route :=
  into ++ map (under prefix) (routes router).

(** The default of the [prefix] argument: the empty string. *)
Definition no_prefix : string := EmptyString.

Definition include_router (self router : APIRouter) (prefix : string)
  : APIRouter :=
  mkAPIRouter (include_routes (routes self) router prefix).

(** [app/api/v1/__init__.py].  The four routers come from modules that
    are opaque here. *)
Module api_v1.
Section V1.
Variables auth_router artwork_router blockchain_router admin_router
  : APIRouter.

Definition router : APIRouter :=
  let router := APIRouter_new in
  let router := include_router router auth_router no_prefix in
  let router := include_router router artwork_router no_prefix in
  let router := include_router router blockchain_router no_prefix in
  let router := include_router router admin_router no_prefix in
  router.

End V1.
End api_v1.

(** ** The application object *)

Inductive Middleware (H : Type) : Type :=
| CORSMiddleware (allow_origins : list string) (allow_credentials : bool)
                 (allow_methods allow_headers : list string)
| BaseHTTPMiddleware
    (dispatch : (Request -> External H Response) -> Request -> M H Response).
Arguments CORSMiddleware {H}.
Arguments BaseHTTPMiddleware {H}.

Record FastAPI (H : Type) : Type := mkFastAPI {
  title : string;
  description : string;
  version : string;
  user_middleware : list (Middleware H);
  on_startup : list (M H unit);
  on_shutdown : list (M H unit);
  app_routes : list Route
}.
Arguments mkFastAPI {H}.
Arguments title {H}.
Arguments description {H}.
Arguments version {H}.
Arguments user_middleware {H}.
Arguments on_startup {H}.
Arguments on_shutdown {H}.
Arguments app_routes {H}.

Section Application.
Context {H : Type}.

(** Routes the framework installs by itself when the application object
    is made (schema and documentation pages). *)
Variable framework_routes : list Route.

Definition FastAPI_new (title description version : string) : FastAPI H :=
  mkFastAPI title description version [] [] [] framework_routes.

(** [app.add_middleware(...)] and [@app.middleware("http")]: the new
    middleware goes in front of the ones already there. *)
Definition add_middleware (app : FastAPI H) (m : Middleware H) : FastAPI H :=
  mkFastAPI (title app) (description app) (version app)
            (m :: user_middleware app)
            (on_startup app) (on_shutdown app) (app_routes app).

Definition add_event_handler (app : FastAPI H) (event_type : string)
           (func : M H unit) : FastAPI H :=
  if String.eqb event_type "startup" then
    mkFastAPI (title app) (description app) (version app)
              (user_middleware app)
              (on_startup app ++ [func]) (on_shutdown app) (app_routes app)
  else
    mkFastAPI (title app) (description app) (version app)
              (user_middleware app)
              (on_startup app) (on_shutdown app ++ [func]) (app_routes app).

Definition app_include_router (app : FastAPI H) (router : APIRouter)
           (prefix : string) : FastAPI H :=
  mkFastAPI (title app) (description app) (version app)
            (user_middleware app) (on_startup app) (on_shutdown app)
            (include_routes (app_routes app) router prefix).

(** [@app.get(path, include_in_schema=...)]. *)
Definition app_get (app : FastAPI H) (path : string)
           (include_in_schema : bool) (endpoint : string) : FastAPI H :=
  mkFastAPI (title app) (description app) (version app)
            (user_middleware app) (on_startup app) (on_shutdown app)
            (app_routes app
             ++ [mkRoute path ["GET"] endpoint include_in_schema]).

Variables auth_router artwork_router blockchain_router admin_router
  : APIRouter.
Variables connect_to_mongo close_mongo_connection : External H unit.

(** [register_routes_and_events(app)], lines 56-77. *)
Definition register_routes_and_events (app : FastAPI H) : FastAPI H :=
  let api_router :=
    api_v1.router auth_router artwork_router blockchain_router admin_router
  in
  let app := add_event_handler app "startup" (startup_db connect_to_mongo) in
  let app :=
    add_event_handler app "shutdown" (shutdown_db close_mongo_connection) in
  let app := app_include_router app api_router "/api/v1" in
  let app := app_get app "/" false "root" in
  let app := app_get app "/favicon.ico" false "favicon" in
  app.

(** [create_app()], lines 14-54. *)
Definition create_app : FastAPI H :=
  let app :=
    FastAPI_new "ART_DRM Backend" "Digital Rights Management for Artworks"
                "1.0.0" in
  let app := add_middleware app (CORSMiddleware ["*"] true ["*"] ["*"]) in
  let app := add_middleware app (BaseHTTPMiddleware db_exception_handler) in
  let app := register_routes_and_events app in
  app.

End Application.

(** ** The Application Shell *)

Inductive ShellState : Type := STARTING | RUNNING | STOPPING | STOPPED.

(** What one life of the process leaves behind: the shell states it went
    through, the answers it gave to the requests it accepted, the failure
    that ended it (if one did), and the world at its end. *)
Record Run (H : Type) : Type := mkRun {
  visited : list ShellState;
  answers : list (Outcome Response);
  fatal : option Exn;
  final : World H
}.
Arguments mkRun {H}.
Arguments visited {H}.
Arguments answers {H}.
Arguments fatal {H}.
Arguments final {H}.

Section Shell.
Context {H : Type}.

(** Modelled from the spec: the host runtime calls the lifecycle hooks
    bound to it, in the order of their registration; a hook that raises
    ends the sequence with its failure (section 6, startup and shutdown
    hooks).  The host is the framework, not in src. *)
Fixpoint run_hooks (hooks : list (M H unit)) : M H unit :=
  match hooks with
  | [] => ret tt
  | hook :: rest => hook ;;; run_hooks rest
  end.

(** Modelled from the spec: every request passes through the fault
    isolation middleware (section 4.4, RUNNING): the outermost user
    middleware gets the request, and [call_next] is all that lies below
    it.  The host is the framework, not in src. *)
Definition handle (app : FastAPI H)
           (call_next : Request -> External H Response)
           (request : Request) : M H Response :=
  match user_middleware app with
  | BaseHTTPMiddleware dispatch :: _ => dispatch call_next request
  | _ => await (Await_call_next request) (call_next request)
  end.

(** Modelled from the spec: requests are independent; each accepted
    request is answered, whatever became of the ones before it
    (section 5).  The host is the framework, not in src. *)
Fixpoint serve (app : FastAPI H)
         (call_next : Request -> External H Response)
         (requests : list Request) (w : World H)
  : list (Outcome Response) * World H :=
  match requests with
  | [] => ([], w)
  | request :: rest =>
      match handle app call_next request w with
      | (o, w1) =>
          match serve app call_next rest w1 with
          | (os, w2) => (o :: os, w2)
          end
      end
  end.

(** Modelled from the spec: the state machine of section 4.4,
    STARTING -> RUNNING -> STOPPING -> STOPPED.  In STARTING the startup
    hooks run and a failure aborts startup, nothing ever reaching
    RUNNING; in RUNNING requests are accepted; STOPPING is entered on the
    shutdown signal and STOPPED once the shutdown hooks have completed.
    The host is the framework, not in src. *)
Definition run_process (app : FastAPI H)
           (call_next : Request -> External H Response)
           (requests : list Request) (w : World H) : Run H :=
  match run_hooks (on_startup app) w with
  | (Raised e, w1) => mkRun [STARTING] [] (Some e) w1
  | (Returned _, w1) =>
      match serve app call_next requests w1 with
      | (os, w2) =>
          match run_hooks (on_shutdown app) w2 with
          | (Returned _, w3) =>
              mkRun [STARTING; RUNNING; STOPPING; STOPPED] os None w3
          | (Raised e, w3) =>
              mkRun [STARTING; RUNNING; STOPPING] os (Some e) w3
          end
      end
  end.

End Shell.

(** The events of [later] that came after those of [earlier]. *)
Definition since {H : Type} (earlier later : World H) : list Event :=
  skipn (length (trace earlier)) (trace later).

Definition is_call_next (ev : Event) : bool :=
  match ev with Await_call_next _ => true | _ => false end.

Definition is_log (ev : Event) : bool :=
  match ev with Log _ _ => true | _ => false end.

(** What reaches the caller of the middleware as a response body, if a
    response does. *)
Definition sent_body (o : Outcome Response) : option Body :=
  match o with
  | Returned response => Some (body response)
  | Raised _ => None
  end.

(** ** [app/main.py]: the basic routes *)






Section BasicRoutes.
Context {H : Type}.






End BasicRoutes.

(** ** The validation error path *)

(** Modelled from the spec: the standard input-validation error path
    (section 4.2, rule 4; section 7, ValidationFailure): malformed input
    is answered with the structured validation-error response, status
    422, whose "detail" is the error list of the failure; [errors] gives
    that list.  This is the handler the framework installs for
    [RequestValidationError]; the framework is not in src. *)
Definition request_validation_exception_handler (errors : Exn -> Json)
           (e : Exn) : Response :=
  JSONResponse 422 (JObj [("detail", errors e)]).

(** Modelled from the spec: the handlers of an application that was given
    none of its own, as [FastAPI(title=..., description=..., version=...)]
    of lines 15-19 is: the one for [HTTPException], a parameter here, and
    the one for [RequestValidationError].  The framework is not in
    src. *)
Definition default_exception_handlers
           (http_exception_handler : Exn -> Response)
           (errors : Exn -> Json) : list (string * (Exn -> Response)) :=
  [ ("HTTPException", http_exception_handler);
    ("RequestValidationError", request_validation_exception_handler errors) ].

(** Modelled from the spec: the handler of a raised exception is the one
    of the first class in its resolution order that has one.  The
    framework is not in src. *)
Fixpoint lookup_exception_handler
         (handlers : list (string * (Exn -> Response)))
         (classes : list string) : option (Exn -> Response) :=
  match classes with
  | [] => None
  | cls :: rest =>
      match find (fun entry => String.eqb (fst entry) cls) handlers with
      | Some entry => Some (snd entry)
      | None => lookup_exception_handler handlers rest
      end
  end.

(** Modelled from the spec: the layer between the user middleware and the
    router (section 4.2, rule 4: validation failures go to the standard
    input-validation error path).  A failure raised below it that has a
    handler is answered with that handler's response; any other failure
    goes on upwards.  The framework is not in src. *)
Definition exception_layer {H : Type}
           (handlers : list (string * (Exn -> Response)))
           (router_app : Request -> External H Response)
  : Request -> External H Response :=
  fun request h =>
    match router_app request h with
    | (Returned response, h') => (Returned response, h')
    | (Raised e, h') =>
        match lookup_exception_handler handlers (mro e) with
        | Some handler => (Returned (handler e), h')
        | None => (Raised e, h')
        end
    end.

(** ** Concrete inputs used in the examples *)

Module Sample.

Inductive Db : Type := OPEN | CLOSED.

Definition request : Request := mkRequest "GET" "/api/v1/artwork/42".

Definition mongo_down : Exn :=
  RuntimeError "MongoDB connection lost" "Traceback: db.py line 12".
Definition boom : Exn :=
  RuntimeError "boom" "Traceback: artwork.py line 7".
Definition bad_value : Exn :=
  ValueError "MongoDB said no" "Traceback: admin.py line 3".
Definition bad_input : Exn :=
  RequestValidationError "field required" "Traceback: routing.py line 301".
Definition unprocessable : Response :=
  JSONResponse 422 (JObj [("detail", JArr [JStr "field required"])]).

Definition raising (e : Exn) : Request -> External Db Response :=
  fun _ h => (Raised e, h).
Definition returning (r : Response) : Request -> External Db Response :=
  fun _ h => (Returned r, h).

Definition connect_ok : External Db unit := fun _ => (Returned tt, OPEN).
Definition connect_fails : External Db unit :=
  fun h => (Raised (RuntimeError "MongoDB unreachable" "tb"), h).
Definition close_ok : External Db unit := fun _ => (Returned tt, CLOSED).
Definition close_fails : External Db unit :=
  fun h => (Raised (RuntimeError "close failed" "tb"), h).

(** The error list of a failure, reduced to its string. *)
Definition errors (e : Exn) : Json := JArr [JStr (str e)].
Definition http_error (e : Exn) : Response :=
  JSONResponse 404 (JObj [("detail", JStr (str e))]).

Definition w0 : World Db := mkWorld CLOSED [].
Definition w_open : World Db := mkWorld OPEN [].

Definition auth : APIRouter :=
  mkAPIRouter [mkRoute "/auth/login" ["POST"] "login" true].
Definition artwork : APIRouter :=
  mkAPIRouter [mkRoute "/artwork/{id}" ["GET"] "get_artwork" true;
               mkRoute "/artwork" ["POST"] "upload" true].
Definition blockchain : APIRouter :=
  mkAPIRouter [mkRoute "/blockchain/tx" ["GET"] "tx" true].
Definition admin : APIRouter :=
  mkAPIRouter [mkRoute "/admin/users" ["GET"] "users" true].

End Sample.

(** * Properties *)

(** ** The logger *)

Lemma logger_log_enabled {H : Type} level message (w : World H) :
  isEnabledFor level = true ->
  logger_log level message w
  = (Returned tt, mkWorld (ext w) (trace w ++ [Log level message])).
Proof. intros E; unfold logger_log; rewrite E; reflexivity. Qed.

(** ** How the middleware runs *)

Section MiddlewareFacts.
Context {H : Type}.
Variable call_next : Request -> External H Response.
Variable request : Request.

Lemma db_exception_handler_run (w : World H) :
  db_exception_handler call_next request w =
  match call_next request (ext w) with
  | (Returned r, h') =>
      (Returned r, mkWorld h' (trace w ++ [Await_call_next request]))
  | (Raised e, h') =>
      (fault_outcome e,
       mkWorld h' (trace w ++ Await_call_next request :: fault_log e))
  end.
Proof.
  unfold db_exception_handler, try_except, bind, await, ret.
  destruct (call_next request (ext w)) as [[r | e] h']; [reflexivity |].
  unfold fault_outcome, fault_log, classify; cbn [except_clauses].
  destruct (isinstance e "RuntimeError").
  - destruct (contains (str e) "MongoDB"); [| reflexivity].
    unfold logger_error; rewrite logger_log_enabled by reflexivity.
    cbn [ext trace]; rewrite <- app_assoc; reflexivity.
  - destruct (isinstance e "Exception"); [| reflexivity].
    unfold logger_error; rewrite logger_log_enabled by reflexivity.
    cbn [ext trace]; rewrite <- app_assoc; reflexivity.
Qed.

Lemma db_exception_handler_returned (w : World H) r h' :
  call_next request (ext w) = (Returned r, h') ->
  db_exception_handler call_next request w =
  (Returned r, mkWorld h' (trace w ++ [Await_call_next request])).
Proof. intros E; rewrite db_exception_handler_run, E; reflexivity. Qed.

Lemma db_exception_handler_raised (w : World H) e h' :
  call_next request (ext w) = (Raised e, h') ->
  db_exception_handler call_next request w =
  (fault_outcome e,
   mkWorld h' (trace w ++ Await_call_next request :: fault_log e)).
Proof. intros E; rewrite db_exception_handler_run, E; reflexivity. Qed.

End MiddlewareFacts.

Lemma classify_ServiceUnavailable e :
  classify e = ServiceUnavailable <->
  isinstance e "RuntimeError" = true /\ contains (str e) "MongoDB" = true.
Proof.
  unfold classify.
  destruct (isinstance e "RuntimeError"), (contains (str e) "MongoDB"),
    (isinstance e "Exception"); split; intros; try discriminate;
    try tauto; intuition discriminate.
Qed.

Lemma classify_InternalError e :
  classify e = InternalError <->
  isinstance e "RuntimeError" = false /\ isinstance e "Exception" = true.
Proof.
  unfold classify.
  destruct (isinstance e "RuntimeError"), (contains (str e) "MongoDB"),
    (isinstance e "Exception"); split; intros; try discriminate;
    try tauto; intuition discriminate.
Qed.

Lemma since_app {H : Type} (w w' : World H) evs :
  trace w' = (trace w ++ evs)%list -> since w w' = evs.
Proof.
  intros E; unfold since; rewrite E.
  rewrite skipn_app, skipn_all, Nat.sub_diag; reflexivity.
Qed.

(** ** The model at work *)

Example contains_inside : contains "lost MongoDB link" "MongoDB" = true.
Proof. reflexivity. Qed.

Example contains_is_case_sensitive : contains "mongodb down" "MongoDB" = false.
Proof. reflexivity. Qed.

Example mongo_runtime_error_run :
  db_exception_handler (Sample.raising Sample.mongo_down)
    Sample.request Sample.w0
  = (Returned service_unavailable,
     mkWorld Sample.CLOSED
       [Await_call_next Sample.request;
        Log ERROR "Database error: MongoDB connection lost"]).
Proof. reflexivity. Qed.

Example subclass_of_runtime_error_run :
  fst (db_exception_handler
         (Sample.raising (NotImplementedError "MongoDB sharding" "tb"))
         Sample.request Sample.w0)
  = Returned service_unavailable.
Proof. reflexivity. Qed.

Example keyboard_interrupt_run :
  db_exception_handler (Sample.raising (KeyboardInterrupt "MongoDB" "tb"))
    Sample.request Sample.w0
  = (Raised (KeyboardInterrupt "MongoDB" "tb"),
     mkWorld Sample.CLOSED [Await_call_next Sample.request]).
Proof. reflexivity. Qed.

Example good_life_run :
  let r :=
    run_process
      (create_app [] Sample.auth Sample.artwork Sample.blockchain
                  Sample.admin Sample.connect_ok Sample.close_ok)
      (Sample.returning Sample.unprocessable) [Sample.request]
      Sample.w0 in
  visited r = [STARTING; RUNNING; STOPPING; STOPPED]
  /\ answers r = [Returned Sample.unprocessable]
  /\ final r
     = mkWorld Sample.CLOSED
         [Await_connect_to_mongo; Await_call_next Sample.request;
          Await_close_mongo_connection].
Proof. cbv zeta; repeat split; reflexivity. Qed.

(** ** The fault-isolation middleware *)

(** C1.  When the handler chain raises a failure that the middleware
    classifies as a resource failure, the middleware returns a response
    with status 503 whose body is exactly the JSON object with the single
    field "detail" set to "Service unavailable - database error"; the
    response is the same constant for every such failure, so nothing of
    the failure is in it. *)
Theorem resource_failure_answered_503 {H : Type}
        (call_next : Request -> External H Response) (request : Request)
        (w : World H) (e : Exn) (h' : H) :
  call_next request (ext w) = (Raised e, h') ->
  classify e = ServiceUnavailable ->
  fst (db_exception_handler call_next request w) =
  Returned
    (mkResponse 503
       (JsonBody
          (JObj [("detail", JStr "Service unavailable - database error")]))).
Proof.
  intros Hraise Hclass.
  rewrite (db_exception_handler_raised _ _ _ _ _ Hraise).
  unfold fault_outcome; rewrite Hclass; reflexivity.
Qed.

Lemma resource_failure_answered_503_witness :
  fst (db_exception_handler (Sample.raising Sample.mongo_down)
         Sample.request Sample.w0) =
  Returned
    (mkResponse 503
       (JsonBody
          (JObj [("detail", JStr "Service unavailable - database error")]))).
Proof.
  apply (resource_failure_answered_503
           (Sample.raising Sample.mongo_down) Sample.request Sample.w0
           Sample.mongo_down Sample.CLOSED);
    reflexivity.
Defined.

(** C10.  The 503 answer needs both conditions at once: the exception is
    an instance of RuntimeError and its string contains "MongoDB".  An
    exception of another type (an Exception that is not a RuntimeError)
    gets the 500 answer whatever its message; a RuntimeError without that
    substring is re-raised by the middleware, unanswered and unlogged. *)
Theorem classification_needs_type_and_message {H : Type}
        (call_next : Request -> External H Response) (request : Request)
        (w : World H) (e : Exn) (h' : H) :
  call_next request (ext w) = (Raised e, h') ->
  (fst (db_exception_handler call_next request w)
   = Returned service_unavailable
   <-> isinstance e "RuntimeError" = true
       /\ contains (str e) "MongoDB" = true)
  /\ (isinstance e "RuntimeError" = false ->
      isinstance e "Exception" = true ->
      fst (db_exception_handler call_next request w)
      = Returned internal_server_error)
  /\ (isinstance e "RuntimeError" = true ->
      contains (str e) "MongoDB" = false ->
      db_exception_handler call_next request w
      = (Raised e, mkWorld h' (trace w ++ [Await_call_next request]))).
Proof.
  intros Hraise.
  rewrite (db_exception_handler_raised _ _ _ _ _ Hraise).
  unfold fault_outcome, fault_log, classify; simpl.
  destruct (isinstance e "RuntimeError") eqn:HR;
    destruct (contains (str e) "MongoDB") eqn:HM;
    destruct (isinstance e "Exception") eqn:HE;
    repeat split; intros; try discriminate; try reflexivity;
    try (intuition discriminate).
Qed.

Lemma classification_needs_type_and_message_witness :
  (fst (db_exception_handler (Sample.raising Sample.bad_value)
          Sample.request Sample.w0)
   = Returned service_unavailable
   <-> isinstance Sample.bad_value "RuntimeError" = true
       /\ contains (str Sample.bad_value) "MongoDB" = true)
  /\ (isinstance Sample.bad_value "RuntimeError" = false ->
      isinstance Sample.bad_value "Exception" = true ->
      fst (db_exception_handler (Sample.raising Sample.bad_value)
             Sample.request Sample.w0)
      = Returned internal_server_error)
  /\ (isinstance Sample.bad_value "RuntimeError" = true ->
      contains (str Sample.bad_value) "MongoDB" = false ->
      db_exception_handler (Sample.raising Sample.bad_value)
        Sample.request Sample.w0
      = (Raised Sample.bad_value,
         mkWorld Sample.CLOSED
           (trace Sample.w0 ++ [Await_call_next Sample.request]))).
Proof.
  apply (classification_needs_type_and_message
           (Sample.raising Sample.bad_value) Sample.request Sample.w0
           Sample.bad_value Sample.CLOSED).
  reflexivity.
Defined.

(** C2, as the code has it.  A failure escaping the handler chain is
    caught and answered by the middleware (503 or 500, fixed bodies)
    unless it is a RuntimeError whose message lacks "MongoDB", or not an
    Exception at all: those the middleware lets go on to its caller. *)
Theorem failure_answered_unless_passed_through {H : Type}
        (call_next : Request -> External H Response) (request : Request)
        (w : World H) (e : Exn) (h' : H) :
  call_next request (ext w) = (Raised e, h') ->
  if (isinstance e "RuntimeError" && negb (contains (str e) "MongoDB"))
     || negb (isinstance e "RuntimeError" || isinstance e "Exception")
  then fst (db_exception_handler call_next request w) = Raised e
  else fst (db_exception_handler call_next request w)
       = Returned service_unavailable
       \/ fst (db_exception_handler call_next request w)
          = Returned internal_server_error.
Proof.
  intros Hraise.
  rewrite (db_exception_handler_raised _ _ _ _ _ Hraise).
  unfold fault_outcome, classify; simpl.
  destruct (isinstance e "RuntimeError");
    destruct (contains (str e) "MongoDB");
    destruct (isinstance e "Exception"); simpl; auto.
Qed.

Lemma failure_answered_unless_passed_through_witness :
  fst (db_exception_handler (Sample.raising Sample.bad_value)
         Sample.request Sample.w0)
  = Returned service_unavailable
  \/ fst (db_exception_handler (Sample.raising Sample.bad_value)
            Sample.request Sample.w0)
     = Returned internal_server_error.
Proof.
  apply (failure_answered_unless_passed_through
           (Sample.raising Sample.bad_value) Sample.request Sample.w0
           Sample.bad_value Sample.CLOSED).
  reflexivity.
Defined.

(** C2, where it fails: RuntimeError("boom") raised by the handler chain
    leaves the middleware as it came in; no response is made. *)
Lemma runtime_error_escapes_middleware :
  isinstance Sample.boom "Exception" = true
  /\ db_exception_handler (Sample.raising Sample.boom)
       Sample.request Sample.w0
     = (Raised Sample.boom,
        mkWorld Sample.CLOSED [Await_call_next Sample.request])
  /\ ~ (exists response,
          fst (db_exception_handler (Sample.raising Sample.boom)
                 Sample.request Sample.w0) = Returned response).
Proof.
  split; [reflexivity |]. split; [reflexivity |].
  intros [response Hresp]. vm_compute in Hresp. discriminate.
Qed.

(** C3, as the code has it.  When the handler chain raises an Exception
    that is not a RuntimeError, the middleware returns status 500 with
    the body {"detail": "Internal server error"} and nothing else, and
    adds exactly one record to the log, at level ERROR, holding the
    failure's message and traceback. *)
Theorem other_exception_answered_500_logged_once {H : Type}
        (call_next : Request -> External H Response) (request : Request)
        (w : World H) (e : Exn) (h' : H) :
  call_next request (ext w) = (Raised e, h') ->
  isinstance e "RuntimeError" = false ->
  isinstance e "Exception" = true ->
  db_exception_handler call_next request w =
  (Returned
     (mkResponse 500
        (JsonBody (JObj [("detail", JStr "Internal server error")]))),
   mkWorld h'
     (trace w ++
      [Await_call_next request;
       Log ERROR ("Unhandled exception: " ++ str e ++ newline
                  ++ format_exc e)])).
Proof.
  intros Hraise HR HE.
  rewrite (db_exception_handler_raised _ _ _ _ _ Hraise).
  unfold fault_outcome, fault_log, classify; rewrite HR, HE; reflexivity.
Qed.

Lemma other_exception_answered_500_logged_once_witness :
  db_exception_handler (Sample.raising Sample.bad_value)
    Sample.request Sample.w0 =
  (Returned
     (mkResponse 500
        (JsonBody (JObj [("detail", JStr "Internal server error")]))),
   mkWorld Sample.CLOSED
     (trace Sample.w0 ++
      [Await_call_next Sample.request;
       Log ERROR ("Unhandled exception: " ++ str Sample.bad_value
                  ++ newline ++ format_exc Sample.bad_value)])).
Proof.
  apply (other_exception_answered_500_logged_once
           (Sample.raising Sample.bad_value) Sample.request Sample.w0
           Sample.bad_value Sample.CLOSED);
    reflexivity.
Defined.

(** C3, where it fails: RuntimeError("boom") is not classified as a
    resource failure and is not a validation failure, yet the middleware
    answers it with no response and logs nothing for it. *)
Lemma unclassified_runtime_error_not_answered_500 :
  classify Sample.boom <> ServiceUnavailable
  /\ is_validation_failure Sample.boom = false
  /\ fst (db_exception_handler (Sample.raising Sample.boom)
            Sample.request Sample.w0)
     <> Returned internal_server_error
  /\ filter is_log
       (trace (snd (db_exception_handler (Sample.raising Sample.boom)
                      Sample.request Sample.w0))) = [].
Proof.
  repeat split; try reflexivity; vm_compute; discriminate.
Qed.

Lemma lookup_validation_handler http_exception_handler errors classes :
  existsb (String.eqb "RequestValidationError") classes = true ->
  existsb (String.eqb "HTTPException") classes = false ->
  lookup_exception_handler
    (default_exception_handlers http_exception_handler errors) classes
  = Some (request_validation_exception_handler errors).
Proof.
  induction classes as [| cls rest IH]; intros Hval Hhttp;
    [discriminate |].
  cbn [existsb] in Hval, Hhttp.
  apply orb_false_elim in Hhttp as [Hnot Hrest].
  cbn [lookup_exception_handler default_exception_handlers find fst snd].
  rewrite Hnot.
  destruct (String.eqb "RequestValidationError" cls); [reflexivity |].
  apply IH; assumption.
Qed.

(** C4.  A validation failure raised for a request with malformed input
    is answered by the validation error path below the middleware, and
    the middleware lets that answer through as it is: the caller gets the
    422 validation response with the failure's error list, the
    middleware logs nothing, and the answer is neither the 503 nor the
    500 fault response. *)
Theorem validation_failure_answered_by_validation_path {H : Type}
        (http_exception_handler : Exn -> Response) (errors : Exn -> Json)
        (router_app : Request -> External H Response) (request : Request)
        (w : World H) (e : Exn) (h' : H) :
  router_app request (ext w) = (Raised e, h') ->
  isinstance e "RequestValidationError" = true ->
  isinstance e "HTTPException" = false ->
  let call_next :=
    exception_layer
      (default_exception_handlers http_exception_handler errors)
      router_app in
  db_exception_handler call_next request w
  = (Returned (mkResponse 422 (JsonBody (JObj [("detail", errors e)]))),
     mkWorld h' (trace w ++ [Await_call_next request]))
  /\ fst (db_exception_handler call_next request w)
     <> Returned service_unavailable
  /\ fst (db_exception_handler call_next request w)
     <> Returned internal_server_error.
Proof.
  intros Hraise Hval Hhttp call_next.
  assert (Hrun : db_exception_handler call_next request w
                 = (Returned
                      (mkResponse 422
                         (JsonBody (JObj [("detail", errors e)]))),
                    mkWorld h' (trace w ++ [Await_call_next request]))).
  { apply db_exception_handler_returned.
    unfold call_next, exception_layer. rewrite Hraise.
    rewrite (lookup_validation_handler _ _ _ Hval Hhttp). reflexivity. }
  rewrite Hrun. cbn [fst].
  repeat split; intros Heq; inversion Heq.
Qed.

Lemma validation_failure_answered_by_validation_path_witness :
  db_exception_handler
    (exception_layer
       (default_exception_handlers Sample.http_error Sample.errors)
       (Sample.raising Sample.bad_input))
    Sample.request Sample.w0
  = (Returned Sample.unprocessable,
     mkWorld Sample.CLOSED [Await_call_next Sample.request]).
Proof.
  apply (proj1 (validation_failure_answered_by_validation_path
                  Sample.http_error Sample.errors
                  (Sample.raising Sample.bad_input) Sample.request
                  Sample.w0 Sample.bad_input Sample.CLOSED
                  eq_refl eq_refl eq_refl)).
Defined.

(** C7, as the code has it.  Two failures that the clauses of the
    middleware treat alike, raised by any two handler chains for any two
    requests in any two worlds, give the caller the same body: the fixed
    503 body when both are RuntimeErrors holding "MongoDB", the fixed 500
    body when both are Exceptions that are not RuntimeErrors, and no body
    from the middleware when both are let through.  No body holds
    anything of the failure. *)
Theorem same_classification_same_body {H : Type}
        (call_next1 call_next2 : Request -> External H Response)
        (request1 request2 : Request) (w1 w2 : World H)
        (e1 e2 : Exn) (h1 h2 : H) :
  call_next1 request1 (ext w1) = (Raised e1, h1) ->
  call_next2 request2 (ext w2) = (Raised e2, h2) ->
  classify e1 = classify e2 ->
  match classify e1 with
  | ServiceUnavailable =>
      sent_body (fst (db_exception_handler call_next1 request1 w1))
      = Some (JsonBody
                (JObj [("detail",
                        JStr "Service unavailable - database error")]))
      /\ sent_body (fst (db_exception_handler call_next2 request2 w2))
         = Some (JsonBody
                   (JObj [("detail",
                           JStr "Service unavailable - database error")]))
  | InternalError =>
      sent_body (fst (db_exception_handler call_next1 request1 w1))
      = Some (JsonBody (JObj [("detail", JStr "Internal server error")]))
      /\ sent_body (fst (db_exception_handler call_next2 request2 w2))
         = Some (JsonBody (JObj [("detail", JStr "Internal server error")]))
  | PassThrough =>
      sent_body (fst (db_exception_handler call_next1 request1 w1)) = None
      /\ sent_body (fst (db_exception_handler call_next2 request2 w2))
         = None
  end.
Proof.
  intros Hraise1 Hraise2 Hclass.
  rewrite (db_exception_handler_raised _ _ _ _ _ Hraise1).
  rewrite (db_exception_handler_raised _ _ _ _ _ Hraise2).
  unfold fault_outcome; rewrite <- Hclass.
  destruct (classify e1); split; reflexivity.
Qed.

Lemma same_classification_same_body_witness :
  sent_body (fst (db_exception_handler (Sample.raising Sample.bad_value)
                    Sample.request Sample.w0))
  = Some (JsonBody (JObj [("detail", JStr "Internal server error")]))
  /\ sent_body (fst (db_exception_handler
                       (Sample.raising Sample.bad_input)
                       (mkRequest "POST" "/api/v1/artwork") Sample.w_open))
     = Some (JsonBody (JObj [("detail", JStr "Internal server error")])).
Proof.
  apply (same_classification_same_body
           (Sample.raising Sample.bad_value)
           (Sample.raising Sample.bad_input)
           Sample.request (mkRequest "POST" "/api/v1/artwork")
           Sample.w0 Sample.w_open
           Sample.bad_value Sample.bad_input Sample.CLOSED Sample.OPEN);
    reflexivity.
Defined.

(** C7, where it fails: RuntimeError("boom") and ValueError("MongoDB said
    no") are both failures that are neither resource failures nor
    validation failures, yet the caller gets no body from the middleware
    for the first and the 500 body for the second. *)
Lemma unclassified_failures_get_different_bodies :
  classify Sample.boom <> ServiceUnavailable
  /\ classify Sample.bad_value <> ServiceUnavailable
  /\ is_validation_failure Sample.boom = false
  /\ is_validation_failure Sample.bad_value = false
  /\ sent_body (fst (db_exception_handler (Sample.raising Sample.boom)
                       Sample.request Sample.w0)) = None
  /\ sent_body (fst (db_exception_handler (Sample.raising Sample.bad_value)
                       Sample.request Sample.w0))
     = Some (JsonBody (JObj [("detail", JStr "Internal server error")]))
  /\ sent_body (fst (db_exception_handler (Sample.raising Sample.boom)
                       Sample.request Sample.w0))
     <> sent_body (fst (db_exception_handler
                          (Sample.raising Sample.bad_value)
                          Sample.request Sample.w0)).
Proof.
  repeat split; try reflexivity; vm_compute; discriminate.
Qed.

(** C8.  One run of the middleware awaits the handler chain exactly once:
    the outside state is the one a single call leaves, the trace gains
    one call event, and what follows the call is at most one log record
    (the one classification of the failure), none when the chain
    returned. *)
Theorem call_next_awaited_once {H : Type}
        (call_next : Request -> External H Response) (request : Request)
        (w : World H) :
  let w' := snd (db_exception_handler call_next request w) in
  ext w' = snd (call_next request (ext w))
  /\ length (filter is_call_next (since w w')) = 1%nat
  /\ exists logs,
       since w w' = Await_call_next request :: logs
       /\ (length logs <= 1)%nat
       /\ forallb is_log logs = true
       /\ (forall response,
              fst (call_next request (ext w)) = Returned response ->
              logs = [])
       /\ (forall e,
              fst (call_next request (ext w)) = Raised e ->
              logs = fault_log e).
Proof.
  cbv zeta.
  rewrite db_exception_handler_run.
  destruct (call_next request (ext w)) as [[r | e] h'] eqn:Hcall; simpl.
  - rewrite (since_app w _ [Await_call_next request]) by reflexivity.
    split; [reflexivity |]. split; [reflexivity |].
    exists []. repeat split; auto. intros e He; discriminate.
  - rewrite (since_app w _ (Await_call_next request :: fault_log e))
      by reflexivity.
    assert (Hlogs : (length (fault_log e) <= 1)%nat
                    /\ forallb is_log (fault_log e) = true
                    /\ filter is_call_next (fault_log e) = []).
    { unfold fault_log; destruct (classify e); simpl; auto. }
    destruct Hlogs as (Hlen & Hall & Hnone).
    split; [reflexivity |]. split; [simpl; rewrite Hnone; reflexivity |].
    exists (fault_log e). repeat split; auto.
    + intros response Hr; discriminate.
    + intros e0 He0; inversion He0; reflexivity.
Qed.

Lemma call_next_awaited_once_witness :
  ext (snd (db_exception_handler (Sample.raising Sample.mongo_down)
              Sample.request Sample.w0))
  = snd (Sample.raising Sample.mongo_down Sample.request Sample.CLOSED)
  /\ length (filter is_call_next
               (since Sample.w0
                  (snd (db_exception_handler
                          (Sample.raising Sample.mongo_down)
                          Sample.request Sample.w0)))) = 1%nat.
Proof.
  destruct (call_next_awaited_once (Sample.raising Sample.mongo_down)
              Sample.request Sample.w0) as (Hext & Hcount & _).
  split; [exact Hext | exact Hcount].
Defined.

(** ** The lifecycle hooks *)

Section LifecycleFacts.
Context {H : Type}.

Lemma startup_db_run (connect : External H unit) (w : World H) :
  startup_db connect w =
  match connect (ext w) with
  | (Returned u, h') =>
      (Returned u, mkWorld h' (trace w ++ [Await_connect_to_mongo]))
  | (Raised e, h') =>
      (Raised e,
       mkWorld h'
         (trace w ++
          Await_connect_to_mongo ::
          (if isinstance e "Exception"
           then [Log CRITICAL ("Failed to initialize database: " ++ str e)]
           else [])))
  end.
Proof.
  unfold startup_db, try_except, await.
  destruct (connect (ext w)) as [[u | e] h']; [reflexivity |].
  cbn [except_clauses].
  destruct (isinstance e "Exception");
    unfold bind, logger_critical, raise;
    try rewrite logger_log_enabled by reflexivity; cbn [ext trace].
  - rewrite <- app_assoc; reflexivity.
  - reflexivity.
Qed.

Lemma run_hooks_one (hook : M H unit) (w : World H) :
  run_hooks [hook] w =
  match hook w with
  | (Returned _, w') => (Returned tt, w')
  | (Raised e, w') => (Raised e, w')
  end.
Proof.
  simpl; unfold bind, ret. destruct (hook w) as [[u | e] w']; reflexivity.
Qed.

Lemma serve_extends_trace (app : FastAPI H) rest_of_middleware
      (call_next : Request -> External H Response)
      (requests : list Request) :
  user_middleware app
  = BaseHTTPMiddleware db_exception_handler :: rest_of_middleware ->
  forall w, exists evs,
      trace (snd (serve app call_next requests w)) = (trace w ++ evs)%list.
Proof.
  intros Hmw. induction requests as [| request rest IH]; intros w; simpl.
  - exists []. rewrite app_nil_r; reflexivity.
  - unfold handle; rewrite Hmw.
    destruct (db_exception_handler call_next request w) as [o w1] eqn:Hrun.
    destruct (IH w1) as [evs Hevs].
    destruct (serve app call_next rest w1) as [os w2]; simpl in *.
    rewrite db_exception_handler_run in Hrun.
    destruct (call_next request (ext w)) as [[r | e] h'];
      inversion Hrun; subst; simpl in Hevs; rewrite Hevs;
      rewrite <- app_assoc; eexists; reflexivity.
Qed.

End LifecycleFacts.

(** C5, as the code has it.  [shutdown_db] awaits the underlying close
    once and does nothing else: its outcome and the state it leaves are
    those of the close, it adds no log record, and a failure of the close
    is raised to its caller unchanged.  A second call in succession is a
    no-op when the underlying close is one on the state it left. *)
Theorem shutdown_db_is_one_close {H : Type}
        (close_mongo_connection : External H unit) (w : World H) :
  shutdown_db close_mongo_connection w
  = (fst (close_mongo_connection (ext w)),
     mkWorld (snd (close_mongo_connection (ext w)))
             (trace w ++ [Await_close_mongo_connection]))
  /\ (forall e h',
         close_mongo_connection (ext w) = (Raised e, h') ->
         shutdown_db close_mongo_connection w
         = (Raised e,
            mkWorld h' (trace w ++ [Await_close_mongo_connection])))
  /\ (forall h1,
         close_mongo_connection (ext w) = (Returned tt, h1) ->
         close_mongo_connection h1 = (Returned tt, h1) ->
         (shutdown_db close_mongo_connection ;;;
          shutdown_db close_mongo_connection) w
         = (Returned tt,
            mkWorld h1
              (trace w ++ [Await_close_mongo_connection;
                           Await_close_mongo_connection]))).
Proof.
  unfold shutdown_db, bind, await.
  split; [| split].
  - destruct (close_mongo_connection (ext w)); reflexivity.
  - intros e h' Hclose; rewrite Hclose; reflexivity.
  - intros h1 Hfirst Hsecond.
    rewrite Hfirst; cbn [ext trace]; rewrite Hsecond.
    rewrite <- app_assoc; reflexivity.
Qed.

Lemma shutdown_db_is_one_close_witness :
  (shutdown_db Sample.close_ok ;;; shutdown_db Sample.close_ok)
    Sample.w_open
  = (Returned tt,
     mkWorld Sample.CLOSED
       (trace Sample.w_open ++ [Await_close_mongo_connection;
                                Await_close_mongo_connection])).
Proof.
  apply (proj2 (proj2 (shutdown_db_is_one_close
                         Sample.close_ok Sample.w_open)));
    reflexivity.
Defined.

(** C5, where it fails: when the underlying close raises, [shutdown_db]
    raises the same failure; nothing is logged and the resource is left
    open. *)
Lemma shutdown_db_raises_when_close_fails :
  shutdown_db Sample.close_fails Sample.w_open
  = (Raised (RuntimeError "close failed" "tb"),
     mkWorld Sample.OPEN [Await_close_mongo_connection])
  /\ ~ (exists w',
          shutdown_db Sample.close_fails Sample.w_open = (Returned tt, w')).
Proof.
  split; [reflexivity |].
  intros [w' Hret]. vm_compute in Hret. discriminate.
Qed.

(** C6.  When [connect_to_mongo] raises during startup, [startup_db]
    raises the same failure, having logged it at level CRITICAL (when it
    is an Exception); the process stays in STARTING, never reaches
    RUNNING, answers no request and awaits no handler chain.  In every
    life of the process, a handler chain is awaited only after
    [connect_to_mongo] was awaited and returned normally. *)
Theorem startup_failure_never_running {H : Type}
        (framework_routes : list Route)
        (auth_router artwork_router blockchain_router admin_router
         : APIRouter)
        (connect_to_mongo close_mongo_connection : External H unit)
        (call_next : Request -> External H Response)
        (requests : list Request) (w : World H) :
  let app :=
    create_app framework_routes auth_router artwork_router
               blockchain_router admin_router
               connect_to_mongo close_mongo_connection in
  let r := run_process app call_next requests w in
  (forall e h',
      connect_to_mongo (ext w) = (Raised e, h') ->
      startup_db connect_to_mongo w = (Raised e, final r)
      /\ since w (final r)
         = Await_connect_to_mongo ::
           (if isinstance e "Exception"
            then [Log CRITICAL
                    ("Failed to initialize database: " ++ str e)]
            else [])
      /\ fatal r = Some e
      /\ visited r = [STARTING]
      /\ ~ In RUNNING (visited r)
      /\ answers r = []
      /\ forall request,
           ~ In (Await_call_next request) (since w (final r)))
  /\ (forall request before after,
         since w (final r)
         = (before ++ Await_call_next request :: after)%list ->
         In Await_connect_to_mongo before
         /\ exists h1, connect_to_mongo (ext w) = (Returned tt, h1)).
Proof.
  cbv zeta.
  set (app := create_app _ _ _ _ _ _ _).
  assert (Hup : on_startup app = [startup_db connect_to_mongo])
    by reflexivity.
  assert (Hdown : on_shutdown app = [shutdown_db close_mongo_connection])
    by reflexivity.
  assert (Hmw : user_middleware app
                = BaseHTTPMiddleware db_exception_handler
                  :: [CORSMiddleware ["*"] true ["*"] ["*"]])
    by reflexivity.
  assert (Hfail : forall e h',
             connect_to_mongo (ext w) = (Raised e, h') ->
             run_process app call_next requests w
             = mkRun [STARTING] [] (Some e)
                 (mkWorld h'
                    (trace w ++
                     Await_connect_to_mongo ::
                     (if isinstance e "Exception"
                      then [Log CRITICAL
                              ("Failed to initialize database: " ++ str e)]
                      else [])))).
  { intros e h' Hconn. unfold run_process.
    rewrite Hup, run_hooks_one, startup_db_run, Hconn. reflexivity. }
  assert (HA : forall e h',
             connect_to_mongo (ext w) = (Raised e, h') ->
             since w (final (run_process app call_next requests w))
             = Await_connect_to_mongo ::
               (if isinstance e "Exception"
                then [Log CRITICAL
                        ("Failed to initialize database: " ++ str e)]
                else [])).
  { intros e h' Hconn. rewrite (Hfail e h' Hconn). cbn [final].
    apply since_app; reflexivity. }
  assert (Hnone : forall e h',
             connect_to_mongo (ext w) = (Raised e, h') ->
             forall request,
               ~ In (Await_call_next request)
                    (since w (final (run_process app call_next requests w)))).
  { intros e h' Hconn request Hin. rewrite (HA e h' Hconn) in Hin.
    destruct (isinstance e "Exception"); simpl in Hin;
      intuition discriminate. }
  split.
  - intros e h' Hconn.
    split; [rewrite (Hfail e h' Hconn), startup_db_run, Hconn; reflexivity |].
    split; [exact (HA e h' Hconn) |].
    rewrite (Hfail e h' Hconn) at 1 2 3 4. cbn [fatal visited answers].
    split; [reflexivity |]. split; [reflexivity |].
    split; [simpl; intuition discriminate |].
    split; [reflexivity |].
    exact (Hnone e h' Hconn).
  - intros request before after Hsplit.
    destruct (connect_to_mongo (ext w)) as [[[] | e] h1] eqn:Hconn.
    + split; [| exists h1; reflexivity].
      assert (Hhead : exists evs,
                 since w (final (run_process app call_next requests w))
                 = Await_connect_to_mongo :: evs).
      { unfold run_process.
        rewrite Hup, run_hooks_one, startup_db_run, Hconn.
        destruct (serve_extends_trace app _ call_next requests Hmw
                    (mkWorld h1 (trace w ++ [Await_connect_to_mongo])))
          as [evs Hevs].
        destruct (serve app call_next requests _) as [os w2].
        cbn [snd trace] in Hevs.
        rewrite Hdown, run_hooks_one. unfold shutdown_db, await.
        destruct (close_mongo_connection (ext w2)) as [[u | e] h3];
          cbn [final trace];
          eexists; apply since_app; rewrite Hevs, <- !app_assoc;
          reflexivity. }
      destruct Hhead as [evs Hevs]. rewrite Hevs in Hsplit.
      destruct before as [| ev before']; simpl in Hsplit;
        inversion Hsplit; subst. left; reflexivity.
    + exfalso. apply (Hnone e h1 eq_refl request).
      rewrite Hsplit. apply in_elt.
Qed.

Lemma startup_failure_never_running_witness :
  let r :=
    run_process
      (create_app [] Sample.auth Sample.artwork Sample.blockchain
                  Sample.admin Sample.connect_fails Sample.close_ok)
      (Sample.raising Sample.boom) [Sample.request; Sample.request]
      Sample.w0 in
  fatal r = Some (RuntimeError "MongoDB unreachable" "tb")
  /\ visited r = [STARTING]
  /\ answers r = []
  /\ since Sample.w0 (final r)
     = [Await_connect_to_mongo;
        Log CRITICAL "Failed to initialize database: MongoDB unreachable"].
Proof.
  cbv zeta.
  destruct (proj1 (startup_failure_never_running
                     [] Sample.auth Sample.artwork Sample.blockchain
                     Sample.admin Sample.connect_fails Sample.close_ok
                     (Sample.raising Sample.boom)
                     [Sample.request; Sample.request] Sample.w0)
              (RuntimeError "MongoDB unreachable" "tb") Sample.CLOSED
              eq_refl)
    as (_ & Hsince & Hfatal & Hvisited & _ & Hanswers & _).
  repeat split; assumption.
Defined.

(** ** Route composition *)

Lemma under_empty_prefix (rs : list Route) : map (under no_prefix) rs = rs.
Proof.
  induction rs as [| [p m e s] rs IH]; simpl; [| rewrite IH]; reflexivity.
Qed.

Section ApplicationFacts.
Context {H : Type}.
Variable app : FastAPI H.

Lemma app_routes_add_middleware m :
  app_routes (add_middleware app m) = app_routes app.
Proof. reflexivity. Qed.

Lemma app_routes_add_event_handler event_type func :
  app_routes (add_event_handler app event_type func) = app_routes app.
Proof.
  unfold add_event_handler.
  destruct (String.eqb event_type "startup"); reflexivity.
Qed.

Lemma app_routes_include_router router prefix :
  app_routes (app_include_router app router prefix)
  = (app_routes app ++ map (under prefix) (routes router))%list.
Proof. reflexivity. Qed.

Lemma app_routes_get p s e :
  app_routes (app_get app p s e)
  = (app_routes app ++ [mkRoute p ["GET"] e s])%list.
Proof. reflexivity. Qed.

End ApplicationFacts.

(** C9.  The version router holds the routes of the four groups, each
    group once, in the order auth, artwork, blockchain, admin, with their
    own paths; the application holds, after the routes the framework
    installs, exactly these routes, each with its own path behind
    "/api/v1" and otherwise unchanged, and then the two basic routes. *)
Theorem routes_composed_once_under_prefix {H : Type}
        (framework_routes : list Route)
        (auth_router artwork_router blockchain_router admin_router
         : APIRouter)
        (connect_to_mongo close_mongo_connection : External H unit) :
  routes (api_v1.router auth_router artwork_router blockchain_router
                        admin_router)
  = (routes auth_router ++ routes artwork_router
     ++ routes blockchain_router ++ routes admin_router)%list
  /\ app_routes
       (create_app framework_routes auth_router artwork_router
                   blockchain_router admin_router
                   connect_to_mongo close_mongo_connection)
     = (framework_routes
        ++ map (under "/api/v1")
             (routes auth_router ++ routes artwork_router
              ++ routes blockchain_router ++ routes admin_router)
        ++ [mkRoute "/" ["GET"] "root" false;
            mkRoute "/favicon.ico" ["GET"] "favicon" false])%list
  /\ (forall r,
         path (under "/api/v1" r) = "/api/v1" ++ path r
         /\ methods (under "/api/v1" r) = methods r
         /\ endpoint (under "/api/v1" r) = endpoint r).
Proof.
  assert (Hv1 : routes (api_v1.router auth_router artwork_router
                                      blockchain_router admin_router)
                = (routes auth_router ++ routes artwork_router
                   ++ routes blockchain_router
                   ++ routes admin_router)%list).
  { unfold api_v1.router, include_router, include_routes, APIRouter_new.
    cbv zeta. cbn [routes]. rewrite !under_empty_prefix.
    rewrite app_nil_l, <- !app_assoc. reflexivity. }
  split; [exact Hv1 |]. split.
  - unfold create_app, register_routes_and_events; cbv zeta.
    rewrite !app_routes_get, app_routes_include_router,
      !app_routes_add_event_handler, !app_routes_add_middleware, Hv1.
    unfold FastAPI_new; cbn [app_routes].
    rewrite <- !app_assoc. reflexivity.
  - intros r; repeat split.
Qed.

(** * Further properties of the code *)

(** ** Strings and the substring test *)

Lemma string_length_app (a b : string) :
  String.length (a ++ b) = (String.length a + String.length b)%nat.
Proof. induction a as [| ch a IH]; simpl; [| rewrite IH]; reflexivity. Qed.

Lemma prefix_of_app (needle rest : string) :
  String.prefix needle (needle ++ rest) = true.
Proof.
  induction needle as [| ch needle IH]; simpl.
  - destruct rest; reflexivity.
  - destruct (ascii_dec ch ch) as [_ | Hneq]; [exact IH | congruence].
Qed.

Lemma prefix_gives_app (needle s : string) :
  String.prefix needle s = true -> exists rest, s = needle ++ rest.
Proof.
  revert s; induction needle as [| ch needle IH]; intros s Hpre.
  - exists s; reflexivity.
  - destruct s as [| ch' s]; simpl in Hpre; [discriminate |].
    destruct (ascii_dec ch ch') as [Heq | _]; [| discriminate].
    destruct (IH s Hpre) as [rest Hrest].
    exists rest; simpl; congruence.
Qed.

Lemma contains_step (haystack needle : string) :
  contains haystack needle =
  if String.prefix needle haystack then true
  else match haystack with
       | EmptyString => false
       | String _ rest => contains rest needle
       end.
Proof. destruct haystack; reflexivity. Qed.

Lemma contains_iff (haystack needle : string) :
  contains haystack needle = true <->
  exists before after, haystack = before ++ needle ++ after.
Proof.
  split.
  - induction haystack as [| ch haystack IH]; intros Hin;
      rewrite contains_step in Hin.
    + destruct (String.prefix needle EmptyString) eqn:Hpre;
        [| discriminate].
      destruct (prefix_gives_app _ _ Hpre) as [after Hafter].
      exists EmptyString, after; exact Hafter.
    + destruct (String.prefix needle (String ch haystack)) eqn:Hpre.
      * destruct (prefix_gives_app _ _ Hpre) as [after Hafter].
        exists EmptyString, after; exact Hafter.
      * destruct (IH Hin) as (before & after & Heq).
        exists (String ch before), after; simpl; congruence.
  - intros (before & after & Heq); subst haystack.
    induction before as [| ch before IH]; rewrite contains_step.
    + simpl; rewrite prefix_of_app; reflexivity.
    + destruct (String.prefix needle (String ch before ++ needle ++ after));
        [reflexivity | exact IH].
Qed.

Lemma contains_needs_length (haystack needle : string) :
  contains haystack needle = true ->
  (String.length needle <= String.length haystack)%nat.
Proof.
  intros Hin; apply contains_iff in Hin as (before & after & Heq).
  subst haystack; rewrite !string_length_app; lia.
Qed.

(** ** More on the middleware *)

(** X1.  For a RuntimeError raised by the handler chain, the middleware
    gives the 503 answer exactly when the failure's string can be cut as
    some text, then "MongoDB", then some text. *)
Theorem runtime_error_503_iff_message_splits {H : Type}
        (call_next : Request -> External H Response) (request : Request)
        (w : World H) (e : Exn) (h' : H) :
  call_next request (ext w) = (Raised e, h') ->
  isinstance e "RuntimeError" = true ->
  (fst (db_exception_handler call_next request w)
   = Returned service_unavailable
   <-> exists before after, str e = before ++ "MongoDB" ++ after).
Proof.
  intros Hraise HR.
  rewrite (db_exception_handler_raised _ _ _ _ _ Hraise).
  rewrite <- contains_iff.
  unfold fault_outcome, classify; rewrite HR; cbn [fst].
  destruct (contains (str e) "MongoDB"); split; intros Hx;
    try reflexivity; discriminate.
Qed.

Lemma runtime_error_503_iff_message_splits_witness :
  fst (db_exception_handler (Sample.raising Sample.mongo_down)
         Sample.request Sample.w0)
  = Returned service_unavailable
  <-> exists before after,
        str Sample.mongo_down = before ++ "MongoDB" ++ after.
Proof.
  apply (runtime_error_503_iff_message_splits
           (Sample.raising Sample.mongo_down) Sample.request Sample.w0
           Sample.mongo_down Sample.CLOSED);
    reflexivity.
Defined.

(** X2.  A RuntimeError whose string has fewer than seven characters,
    the empty string included, is never answered: the middleware raises
    it again and logs nothing. *)
Theorem short_runtime_error_is_raised_again {H : Type}
        (call_next : Request -> External H Response) (request : Request)
        (w : World H) (e : Exn) (h' : H) :
  call_next request (ext w) = (Raised e, h') ->
  isinstance e "RuntimeError" = true ->
  (String.length (str e) < 7)%nat ->
  db_exception_handler call_next request w
  = (Raised e, mkWorld h' (trace w ++ [Await_call_next request])).
Proof.
  intros Hraise HR Hshort.
  rewrite (db_exception_handler_raised _ _ _ _ _ Hraise).
  unfold fault_outcome, fault_log, classify; rewrite HR.
  destruct (contains (str e) "MongoDB") eqn:Hin; [| reflexivity].
  apply contains_needs_length in Hin; simpl in Hin; lia.
Qed.

Lemma short_runtime_error_is_raised_again_witness :
  db_exception_handler (Sample.raising Sample.boom) Sample.request Sample.w0
  = (Raised Sample.boom,
     mkWorld Sample.CLOSED
       (trace Sample.w0 ++ [Await_call_next Sample.request])).
Proof.
  apply (short_runtime_error_is_raised_again
           (Sample.raising Sample.boom) Sample.request Sample.w0
           Sample.boom Sample.CLOSED);
    [reflexivity | reflexivity | simpl; lia].
Defined.

(** X3.  The middleware makes up nothing but its two fault responses: a
    response it returns is the one the handler chain returned, or the 503
    one for a failure of the first clause, or the 500 one for a failure
    of the second; an exception it raises is the very exception the
    handler chain raised.  It never raises when the chain returned. *)
Theorem middleware_outcome_comes_from_chain {H : Type}
        (call_next : Request -> External H Response) (request : Request)
        (w : World H) :
  match fst (db_exception_handler call_next request w),
        fst (call_next request (ext w)) with
  | Returned response, Returned chain_response => response = chain_response
  | Returned response, Raised e =>
      (response = service_unavailable
       /\ isinstance e "RuntimeError" = true
       /\ contains (str e) "MongoDB" = true)
      \/ (response = internal_server_error
          /\ isinstance e "RuntimeError" = false
          /\ isinstance e "Exception" = true)
  | Raised e', Raised e => e' = e
  | Raised _, Returned _ => False
  end.
Proof.
  rewrite db_exception_handler_run.
  destruct (call_next request (ext w)) as [[r | e] h']; cbn [fst];
    [reflexivity |].
  unfold fault_outcome, classify.
  destruct (isinstance e "RuntimeError");
    destruct (contains (str e) "MongoDB");
    destruct (isinstance e "Exception"); auto.
Qed.

Lemma string_app_empty_r (s : string) : s ++ EmptyString = s.
Proof. induction s as [| ch s IH]; simpl; [| rewrite IH]; reflexivity. Qed.

(** X4.  A failure that the middleware turns into a response is never
    dropped silently: after the call of the handler chain exactly one
    record is logged, at level ERROR, and the failure's string is inside
    its message. *)
Theorem answered_failure_logged_with_message {H : Type}
        (call_next : Request -> External H Response) (request : Request)
        (w : World H) (e : Exn) (h' : H) (response : Response) :
  call_next request (ext w) = (Raised e, h') ->
  fst (db_exception_handler call_next request w) = Returned response ->
  exists message,
    since w (snd (db_exception_handler call_next request w))
    = [Await_call_next request; Log ERROR message]
    /\ contains message (str e) = true.
Proof.
  intros Hraise.
  rewrite (db_exception_handler_raised _ _ _ _ _ Hraise).
  cbn [fst snd]. unfold fault_outcome, fault_log.
  destruct (classify e); intros Hret; [| | discriminate].
  - exists ("Database error: " ++ str e). split.
    + apply since_app; reflexivity.
    + apply contains_iff.
      exists "Database error: ", EmptyString.
      rewrite string_app_empty_r; reflexivity.
  - exists ("Unhandled exception: " ++ str e ++ newline ++ format_exc e).
    split.
    + apply since_app; reflexivity.
    + apply contains_iff.
      exists "Unhandled exception: ", (newline ++ format_exc e).
      reflexivity.
Qed.

Lemma answered_failure_logged_with_message_witness :
  exists message,
    since Sample.w0
      (snd (db_exception_handler (Sample.raising Sample.bad_value)
              Sample.request Sample.w0))
    = [Await_call_next Sample.request; Log ERROR message]
    /\ contains message (str Sample.bad_value) = true.
Proof.
  apply (answered_failure_logged_with_message
           (Sample.raising Sample.bad_value) Sample.request Sample.w0
           Sample.bad_value Sample.CLOSED internal_server_error);
    reflexivity.
Defined.

(** X5.  For a failure answered with 503 only its string is kept: two
    such failures with the same string, whatever their classes and
    tracebacks, leave the same answer and the same log. *)
Theorem resource_failure_keeps_only_its_string {H : Type}
        (call_next1 call_next2 : Request -> External H Response)
        (request : Request) (w : World H) (e1 e2 : Exn) (h' : H) :
  call_next1 request (ext w) = (Raised e1, h') ->
  call_next2 request (ext w) = (Raised e2, h') ->
  classify e1 = ServiceUnavailable ->
  classify e2 = ServiceUnavailable ->
  str e1 = str e2 ->
  db_exception_handler call_next1 request w
  = db_exception_handler call_next2 request w.
Proof.
  intros Hraise1 Hraise2 Hclass1 Hclass2 Hstr.
  rewrite (db_exception_handler_raised _ _ _ _ _ Hraise1).
  rewrite (db_exception_handler_raised _ _ _ _ _ Hraise2).
  unfold fault_outcome, fault_log.
  rewrite Hclass1, Hclass2, Hstr; reflexivity.
Qed.

Lemma resource_failure_keeps_only_its_string_witness :
  db_exception_handler (Sample.raising Sample.mongo_down)
    Sample.request Sample.w0
  = db_exception_handler
      (Sample.raising
         (NotImplementedError "MongoDB connection lost"
                              "Traceback: pool.py line 88"))
      Sample.request Sample.w0.
Proof.
  apply (resource_failure_keeps_only_its_string
           (Sample.raising Sample.mongo_down)
           (Sample.raising
              (NotImplementedError "MongoDB connection lost"
                                   "Traceback: pool.py line 88"))
           Sample.request Sample.w0 Sample.mongo_down
           (NotImplementedError "MongoDB connection lost"
                                "Traceback: pool.py line 88")
           Sample.CLOSED);
    reflexivity.
Defined.


(** ** More on the lifecycle hooks *)

(** X6.  [startup_db] hides nothing and changes nothing: it returns
    exactly when [connect_to_mongo] returns and raises exactly what it
    raised, the outside is left as the connect left it, the connect is
    awaited first and once, and on success nothing is logged; on failure
    at most one record follows. *)
Theorem startup_db_outcome_is_connect_outcome {H : Type}
        (connect_to_mongo : External H unit) (w : World H) :
  let w' := snd (startup_db connect_to_mongo w) in
  fst (startup_db connect_to_mongo w) = fst (connect_to_mongo (ext w))
  /\ ext w' = snd (connect_to_mongo (ext w))
  /\ exists logs,
       since w w' = Await_connect_to_mongo :: logs
       /\ (length logs <= 1)%nat
       /\ forallb is_log logs = true
       /\ (forall u, fst (connect_to_mongo (ext w)) = Returned u ->
                     logs = []).
Proof.
  cbv zeta. rewrite startup_db_run.
  destruct (connect_to_mongo (ext w)) as [[u | e] h']; cbn [fst snd ext].
  - split; [reflexivity |]. split; [reflexivity |].
    exists []. split; [apply since_app; reflexivity |].
    repeat split; auto.
  - split; [reflexivity |]. split; [reflexivity |].
    eexists. split; [apply since_app; reflexivity |].
    destruct (isinstance e "Exception"); simpl; repeat split; auto;
      intros u Hu; discriminate.
Qed.

(** ** More on routers and the application object *)

Lemma api_v1_router_routes (auth artwork blockchain admin : APIRouter) :
  routes (api_v1.router auth artwork blockchain admin)
  = (routes auth ++ routes artwork ++ routes blockchain
     ++ routes admin)%list.
Proof.
  unfold api_v1.router, include_router, include_routes, APIRouter_new.
  cbv zeta. cbn [routes]. rewrite !under_empty_prefix.
  rewrite app_nil_l, <- !app_assoc. reflexivity.
Qed.

Section RegisterFacts.
Context {H : Type}.
Variable app : FastAPI H.

Lemma add_event_handler_startup (func : M H unit) :
  add_event_handler app "startup" func
  = mkFastAPI (title app) (description app) (version app)
      (user_middleware app) (on_startup app ++ [func]) (on_shutdown app)
      (app_routes app).
Proof. reflexivity. Qed.

Lemma add_event_handler_shutdown (func : M H unit) :
  add_event_handler app "shutdown" func
  = mkFastAPI (title app) (description app) (version app)
      (user_middleware app) (on_startup app) (on_shutdown app ++ [func])
      (app_routes app).
Proof. reflexivity. Qed.

End RegisterFacts.

(** X10.  [register_routes_and_events] only adds, whatever application
    it is given: the routes already there stay in front, followed by the
    group routes under "/api/v1" and then the two basic routes; the
    startup hooks already there stay in front and [startup_db] comes
    right behind them, likewise [shutdown_db] among the shutdown hooks,
    whatever hooks come later; the middleware is left as it was. *)
Theorem register_routes_and_events_only_adds {H : Type}
        (auth_router artwork_router blockchain_router admin_router
         : APIRouter)
        (connect_to_mongo close_mongo_connection : External H unit)
        (app : FastAPI H) :
  let app' :=
    register_routes_and_events auth_router artwork_router
      blockchain_router admin_router connect_to_mongo
      close_mongo_connection app in
  app_routes app'
  = (app_routes app
     ++ map (under "/api/v1")
          (routes auth_router ++ routes artwork_router
           ++ routes blockchain_router ++ routes admin_router)
     ++ [mkRoute "/" ["GET"] "root" false;
         mkRoute "/favicon.ico" ["GET"] "favicon" false])%list
  /\ (exists later,
        on_startup app'
        = (on_startup app ++ startup_db connect_to_mongo :: later)%list)
  /\ (exists later,
        on_shutdown app'
        = (on_shutdown app
           ++ shutdown_db close_mongo_connection :: later)%list)
  /\ user_middleware app' = user_middleware app.
Proof.
  cbv zeta. unfold register_routes_and_events; cbv zeta.
  rewrite add_event_handler_startup, add_event_handler_shutdown.
  unfold app_get, app_include_router, include_routes.
  cbn [app_routes on_startup on_shutdown user_middleware title description
       version].
  rewrite api_v1_router_routes, <- !app_assoc.
  split; [reflexivity |].
  split; [exists []; reflexivity |].
  split; [exists []; reflexivity | reflexivity].
Qed.

(** X11.  In the application that [create_app] makes, [startup_db] is the
    first startup hook and [shutdown_db] the first shutdown hook, and
    [db_exception_handler] stands in front of the CORS middleware, which
    allows every origin, method and header, with credentials. *)
Theorem create_app_wiring {H : Type}
        (framework_routes : list Route)
        (auth_router artwork_router blockchain_router admin_router
         : APIRouter)
        (connect_to_mongo close_mongo_connection : External H unit) :
  let app :=
    create_app framework_routes auth_router artwork_router
      blockchain_router admin_router connect_to_mongo
      close_mongo_connection in
  (exists later, on_startup app = startup_db connect_to_mongo :: later)
  /\ (exists later,
        on_shutdown app = shutdown_db close_mongo_connection :: later)
  /\ user_middleware app
     = [BaseHTTPMiddleware db_exception_handler;
        CORSMiddleware ["*"] true ["*"] ["*"]].
Proof.
  cbv zeta.
  split; [exists []; reflexivity |].
  split; [exists []; reflexivity | reflexivity].
Qed.

Lemma app_routes_create_app {H : Type}
      (framework_routes : list Route)
      (auth_router artwork_router blockchain_router admin_router
       : APIRouter)
      (connect_to_mongo close_mongo_connection : External H unit) :
  app_routes
    (create_app framework_routes auth_router artwork_router
       blockchain_router admin_router connect_to_mongo
       close_mongo_connection)
  = (framework_routes
     ++ map (under "/api/v1")
          (routes auth_router ++ routes artwork_router
           ++ routes blockchain_router ++ routes admin_router)
     ++ [mkRoute "/" ["GET"] "root" false;
         mkRoute "/favicon.ico" ["GET"] "favicon" false])%list.
Proof.
  unfold create_app, register_routes_and_events; cbv zeta.
  rewrite !app_routes_get, app_routes_include_router,
    !app_routes_add_event_handler, !app_routes_add_middleware,
    api_v1_router_routes.
  unfold FastAPI_new; cbn [app_routes].
  rewrite <- !app_assoc. reflexivity.
Qed.

(** X9.  In the application that [create_app] makes, a route whose path
    does not begin with "/api/v1" is a route of the framework or one of
    the two basic routes: whatever the four groups hold, none of their
    routes can sit on "/" or "/favicon.ico". *)
Theorem routes_outside_prefix_are_basic {H : Type}
        (framework_routes : list Route)
        (auth_router artwork_router blockchain_router admin_router
         : APIRouter)
        (connect_to_mongo close_mongo_connection : External H unit)
        (r : Route) :
  In r (app_routes
          (create_app framework_routes auth_router artwork_router
             blockchain_router admin_router connect_to_mongo
             close_mongo_connection)) ->
  String.prefix "/api/v1" (path r) = false ->
  In r framework_routes
  \/ r = mkRoute "/" ["GET"] "root" false
  \/ r = mkRoute "/favicon.ico" ["GET"] "favicon" false.
Proof.
  intros Hin Hout. rewrite app_routes_create_app in Hin.
  apply in_app_or in Hin as [Hfw | Hin]; [left; exact Hfw |].
  apply in_app_or in Hin as [Hgroup | Hbasic].
  - apply in_map_iff in Hgroup as (r0 & Hr0 & _). subst r.
    unfold under in Hout; cbn [path] in Hout.
    rewrite prefix_of_app in Hout. discriminate.
  - right. simpl in Hbasic. destruct Hbasic as [Hr | [Hr | []]]; auto.
Qed.

Lemma routes_outside_prefix_are_basic_witness :
  In (mkRoute "/" ["GET"] "root" false) []
  \/ mkRoute "/" ["GET"] "root" false = mkRoute "/" ["GET"] "root" false
  \/ mkRoute "/" ["GET"] "root" false
     = mkRoute "/favicon.ico" ["GET"] "favicon" false.
Proof.
  apply (routes_outside_prefix_are_basic
           [] Sample.auth Sample.artwork Sample.blockchain Sample.admin
           Sample.connect_ok Sample.close_ok
           (mkRoute "/" ["GET"] "root" false)).
  - simpl. auto 10.
  - reflexivity.
Defined.
